(** * A shallow embedding of [list_bot.py]

    The bot keeps one shopping-style list per chat in the module-level
    dictionary [list_items], collects the answers of the /add dialog in the
    per-user dictionary [context.user_data], and leaves the bookkeeping of
    "which step is this chat-and-user at" to two [ConversationHandler]s of
    python-telegram-bot.

    The development has four layers:
    - [Py]: the few Python built-ins the handlers call ([str.lower],
      [str.startswith], [str.split], [int], [str], [list.pop]);
    - the handler monad [M]: state ([list_items], [user_data]), the messages
      sent so far, and Python exceptions;
    - the handlers, one definition per [async def] of the source;
    - the dispatcher: [main]'s handler table and the way [Application] and
      [ConversationHandler] pick a handler for an update. *)

From Stdlib Require Import Ascii String ZArith.
From Stdlib Require Import DecimalString DecimalZ.
From stdpp Require Import gmap strings list.

Open Scope string_scope.
Open Scope Z_scope.

(** ** Python built-ins *)

Inductive exn := KeyError | IndexError | ValueError | AttributeError.

Inductive result (A : Type) :=
| Ok (a : A)
| Raise (e : exn).
Arguments Ok {A} a.
Arguments Raise {A} e.

Module Py.

(** The escape [\n] of the message texts. *)
Definition nl : string := String "010"%char "".

(** [c.lower()] on one byte: only A..Z move. *)
Definition lower_char (c : ascii) : ascii :=
  let n := N_of_ascii c in
  if ((65 <=? n) && (n <=? 90))%N then ascii_of_N (n + 32) else c.

Fixpoint lower (s : string) : string :=
  match s with
  | "" => ""
  | String c r => String (lower_char c) (lower r)
  end.

(** [s.startswith(p)] *)
Definition startswith (s p : string) : bool := String.prefix p s.

(** [s.split(sep)] for a one-character separator: never the empty list. *)
Fixpoint split (sep : ascii) (s : string) : list string :=
  match s with
  | "" => [""]
  | String c r =>
      if Ascii.eqb c sep then "" :: split sep r
      else match split sep r with
           | [] => [String c ""]
           | h :: t => String c h :: t
           end
  end.

(** [l[i]] for a literal, non-negative [i]. *)
Definition index {A} (l : list A) (i : nat) : result A :=
  match l !! i with
  | Some x => Ok x
  | None => Raise IndexError
  end.

(** The ASCII characters [int] skips around a number: tab, newline,
    vertical tab, form feed, carriage return, the four separators
    0x1c..0x1f, and space. *)
Definition isspace (c : ascii) : bool :=
  let n := N_of_ascii c in
  ((9 <=? n) && (n <=? 13) || (28 <=? n) && (n <=? 32))%N.

Fixpoint lstrip (s : string) : string :=
  match s with
  | "" => ""
  | String c r => if isspace c then lstrip r else s
  end.

Fixpoint rstrip (s : string) : string :=
  match s with
  | "" => ""
  | String c r =>
      match rstrip r with
      | "" => if isspace c then "" else String c ""
      | r' => String c r'
      end
  end.

Definition strip (s : string) : string := rstrip (lstrip s).

(** A non-empty run of decimal digits. *)
Definition digits (s : string) : result Z :=
  match NilZero.uint_of_string s with
  | Some d => Ok (Z.of_uint d)
  | None => Raise ValueError
  end.

(** [int(s)] in base ten, for a text without digit-grouping underscores
    (the only call site passes a piece of [split "_"]): surrounding
    whitespace is dropped, one sign is allowed, and anything but a
    non-empty run of digits after it is a [ValueError]. *)
Definition int (s : string) : result Z :=
  match strip s with
  | String "+" r => digits r
  | String "-" r =>
      match digits r with
      | Ok z => Ok (- z)
      | Raise e => Raise e
      end
  | r => digits r
  end.

(** [str(z)], the text an f-string puts for an integer. *)
Definition str (z : Z) : string := NilZero.string_of_int (Z.to_int z).

(** [l.pop(i)]: a negative [i] counts from the end, and an [i] below
    [-len(l)] or from [len(l)] on is an [IndexError]. Returns the popped
    element and what is left of the list. *)
Definition pop {A} (l : list A) (i : Z) : result (A * list A) :=
  let n := Z.of_nat (length l) in
  let j := if i <? 0 then i + n else i in
  if (j <? 0) || (n <=? j) then Raise IndexError
  else match l !! Z.to_nat j with
       | Some x => Ok (x, delete (Z.to_nat j) l)
       | None => Raise IndexError
       end.

End Py.

(** ** Data model *)

(** One record of a list: the dictionary
    [{"item": ..., "person": ..., "comment": ...}] built by
    [receive_comment]. *)
Record entry := Entry { item : string; person : string; comment : string }.

#[export] Instance entry_eq_dec : EqDecision entry.
Proof. solve_decision. Defined.

(** States for the conversation handlers: [ITEM, PERSON, COMMENT = range(3)],
    [CHOOSING_ACTION, SELECTING_ITEM = range(3, 5)], and
    [ConversationHandler.END]. *)
Inductive state := ITEM | PERSON | COMMENT | CHOOSING_ACTION | SELECTING_ITEM | END.

#[export] Instance state_eq_dec : EqDecision state.
Proof. solve_decision. Defined.

Definition state_code (s : state) : Z :=
  match s with
  | ITEM => 0 | PERSON => 1 | COMMENT => 2
  | CHOOSING_ACTION => 3 | SELECTING_ITEM => 4
  | END => -1
  end.

(** What an update carries: a message that starts with a bot command, any
    other new text message, or the press of an inline button. *)
Inductive content :=
| CommandMsg (name : string)
| TextMsg (text : string)
| CallbackQuery (data : string).

Record Update := { effective_chat : Z; effective_user : Z; payload : content }.

Record InlineKeyboardButton := Button { label : string; callback_data : string }.

(** What a handler sends back through the Bot API. [Answered] is
    [query.answer()], which only stops the button's progress indicator; the
    other three put text in the chat. *)
Inductive sent :=
| Replied (text : string)
| RepliedWithMarkup (text : string) (keyboard : list (list InlineKeyboardButton))
| Answered
| Edited (text : string).

Definition is_message (o : sent) : bool :=
  match o with
  | Answered => false
  | _ => true
  end.

Definition messages (out : list sent) : list sent := filter (λ o, is_message o = true) out.

(** ** The handler monad *)

(** What a handler can read and write: the global [list_items] and the
    [context.user_data] of the user the update comes from. *)
Record env := Env {
  list_items : gmap Z (list entry);
  user_data : gmap string string
}.

(** A handler runs from an [env] to the [env] it leaves behind, the calls it
    made on the Bot API in order, and either its return value or the
    exception that stopped it. Whatever it wrote before raising stays
    written. *)
Definition M (A : Type) : Type := env → env * list sent * result A.

Definition ret {A} (a : A) : M A := λ σ, (σ, [], Ok a).

Definition bind {A B} (m : M A) (k : A → M B) : M B :=
  λ σ, match m σ with
       | (σ1, out1, Ok a) => let '(σ2, out2, r) := k a σ1 in (σ2, (out1 ++ out2)%list, r)
       | (σ1, out1, Raise e) => (σ1, out1, Raise e)
       end.

Definition raise {A} (e : exn) : M A := λ σ, (σ, [], Raise e).

Definition lift {A} (r : result A) : M A := λ σ, (σ, [], r).

Declare Scope py_scope.
Delimit Scope py_scope with py.
Notation "x <- m ;; k" := (bind m (λ x, k))
  (at level 100, m at next level, right associativity) : py_scope.
Notation "m ;; k" := (bind m (λ _, k))
  (at level 100, right associativity) : py_scope.
Open Scope py_scope.

(** [chat_id in list_items] *)
Definition contains (chat_id : Z) : M bool :=
  λ σ, (σ, [], Ok (bool_decide (is_Some (list_items σ !! chat_id)))).

(** [list_items[chat_id]] as an expression *)
Definition getitem (chat_id : Z) : M (list entry) :=
  λ σ, match list_items σ !! chat_id with
       | Some l => (σ, [], Ok l)
       | None => (σ, [], Raise KeyError)
       end.

(** [list_items[chat_id] = l] *)
Definition setitem (chat_id : Z) (l : list entry) : M unit :=
  λ σ, (Env (<[chat_id := l]> (list_items σ)) (user_data σ), [], Ok tt).

(** [context.user_data[key] = value], [context.user_data[key]] and
    [context.user_data.clear()] *)
Definition user_data_set (key value : string) : M unit :=
  λ σ, (Env (list_items σ) (<[key := value]> (user_data σ)), [], Ok tt).

Definition user_data_get (key : string) : M string :=
  λ σ, match user_data σ !! key with
       | Some v => (σ, [], Ok v)
       | None => (σ, [], Raise KeyError)
       end.

Definition user_data_clear : M unit :=
  λ σ, (Env (list_items σ) ∅, [], Ok tt).

Definition send (o : sent) : M unit := λ σ, (σ, [o], Ok tt).

(** [update.message] is [None] on a button press and [update.callback_query]
    is [None] on a message, so reaching through the wrong one is an
    [AttributeError]. *)
Definition message_text (update : Update) : M string :=
  match payload update with
  | TextMsg text => ret text
  | CommandMsg name => ret ("/" +:+ name)
  | CallbackQuery _ => raise AttributeError
  end.

Definition reply_text (update : Update) (text : string) : M unit :=
  match payload update with
  | CallbackQuery _ => raise AttributeError
  | _ => send (Replied text)
  end.

Definition reply_text_markup (update : Update) (text : string)
    (reply_markup : list (list InlineKeyboardButton)) : M unit :=
  match payload update with
  | CallbackQuery _ => raise AttributeError
  | _ => send (RepliedWithMarkup text reply_markup)
  end.

Definition query_answer (update : Update) : M unit :=
  match payload update with
  | CallbackQuery _ => send Answered
  | _ => raise AttributeError
  end.

Definition query_data (update : Update) : M string :=
  match payload update with
  | CallbackQuery data => ret data
  | _ => raise AttributeError
  end.

Definition query_edit_message_text (update : Update) (text : string) : M unit :=
  match payload update with
  | CallbackQuery _ => send (Edited text)
  | _ => raise AttributeError
  end.

(** [enumerate(l, start)] *)
Fixpoint enumerate {A} (start : Z) (l : list A) : list (Z * A) :=
  match l with
  | [] => []
  | x :: r => (start, x) :: enumerate (start + 1) r
  end.

(** ** The handlers *)

(** The condition [chat_id not in list_items or not list_items[chat_id]] of
    [view_list] and [remove_command]. *)
Definition absent_or_empty (chat_id : Z) : M bool :=
  present <- contains chat_id ;;
  if negb present then ret true
  else l <- getitem chat_id ;; ret (bool_decide (l = [])).

Definition start (update : Update) : M (option state) :=
  reply_text update
    ("Welcome to the Collaborative List Bot!" +:+ Py.nl +:+ Py.nl +:+
     "Use /list to view the current list" +:+ Py.nl +:+
     "Use /add to add a new item" +:+ Py.nl +:+
     "Use /help to see all available commands") ;;
  ret None.

Definition help_command (update : Update) : M (option state) :=
  let help_text :=
    "Available commands:" +:+ Py.nl +:+ Py.nl +:+
    "/start - Start the bot" +:+ Py.nl +:+
    "/help - Show this help message" +:+ Py.nl +:+
    "/list - View the current list" +:+ Py.nl +:+
    "/add - Add a new item to the list" +:+ Py.nl +:+
    "/remove - Remove an item from the list" +:+ Py.nl +:+
    "/clear - Clear the entire list" in
  reply_text update help_text ;;
  ret None.

(** One round of the loop of [view_list]. *)
Definition view_line (message : string) (numbered : Z * entry) : string :=
  let '(i, it) := numbered in
  message +:+ Py.str i +:+ ". Item: " +:+ item it +:+ Py.nl +:+
  "   Person: " +:+ person it +:+ Py.nl +:+
  "   Comment: " +:+ comment it +:+ Py.nl +:+ Py.nl.

Definition view_list (update : Update) : M (option state) :=
  let chat_id := effective_chat update in
  nothing <- absent_or_empty chat_id ;;
  if nothing then
    reply_text update "The list is empty. Use /add to add items." ;;
    ret None
  else
    l <- getitem chat_id ;;
    let message :=
      foldl view_line ("ðŸ“‹ Current List:" +:+ Py.nl +:+ Py.nl) (enumerate 1 l) in
    reply_text update message ;;
    ret None.

Definition add_command (update : Update) : M (option state) :=
  reply_text update "Please enter the item name:" ;;
  ret (Some ITEM).

Definition receive_item (update : Update) : M (option state) :=
  text <- message_text update ;;
  user_data_set "item" text ;;
  reply_text update "Who will provide this item?" ;;
  ret (Some PERSON).

Definition receive_person (update : Update) : M (option state) :=
  text <- message_text update ;;
  user_data_set "person" text ;;
  reply_text update "Any comments? (or type 'none' if no comments)" ;;
  ret (Some COMMENT).

(** [comment = update.message.text], replaced by ["-"] when
    [comment.lower() == "none"]. *)
Definition normalize_comment (text : string) : string :=
  if bool_decide (Py.lower text = "none") then "-" else text.

Definition receive_comment (update : Update) : M (option state) :=
  let chat_id := effective_chat update in
  present <- contains chat_id ;;
  (if negb present then setitem chat_id [] else ret tt) ;;
  text <- message_text update ;;
  let comment := normalize_comment text in
  it <- user_data_get "item" ;;
  who <- user_data_get "person" ;;
  let new_item := Entry it who comment in
  l <- getitem chat_id ;;
  setitem chat_id (l ++ [new_item])%list ;;
  user_data_clear ;;
  reply_text update
    ("Added: " +:+ item new_item +:+ " (Person: " +:+ person new_item +:+ ")" +:+
     Py.nl +:+ Py.nl +:+ "Use /list to view the updated list.") ;;
  ret (Some END).

Definition cancel (update : Update) : M (option state) :=
  reply_text update "Operation cancelled." ;;
  user_data_clear ;;
  ret (Some END).

(** One button of the menu of [remove_command], for the pair [(i, item)] of
    [enumerate(list_items[chat_id], 1)]. *)
Definition remove_button (numbered : Z * entry) : list InlineKeyboardButton :=
  let '(i, it) := numbered in
  [Button (Py.str i +:+ ". " +:+ item it +:+ " (" +:+ person it +:+ ")")
          ("remove_" +:+ Py.str (i - 1))].

Definition remove_keyboard (l : list entry) : list (list InlineKeyboardButton) :=
  (map remove_button (enumerate 1 l) ++ [[Button "Cancel" "cancel"]])%list.

Definition remove_command (update : Update) : M (option state) :=
  let chat_id := effective_chat update in
  nothing <- absent_or_empty chat_id ;;
  if nothing then
    reply_text update "The list is empty. Nothing to remove." ;;
    ret (Some END)
  else
    l <- getitem chat_id ;;
    reply_text_markup update "Select an item to remove:" (remove_keyboard l) ;;
    ret (Some SELECTING_ITEM).

Definition button_callback (update : Update) : M (option state) :=
  query_answer update ;;
  let chat_id := effective_chat update in
  data <- query_data update ;;
  if bool_decide (data = "cancel") then
    query_edit_message_text update "Operation cancelled." ;;
    ret (Some END)
  else
    (if Py.startswith data "remove_" then
       piece <- lift (Py.index (Py.split "_" data) 1) ;;
       idx <- lift (Py.int piece) ;;
       l <- getitem chat_id ;;
       if idx <? Z.of_nat (length l) then
         l' <- getitem chat_id ;;
         popped <- lift (Py.pop l' idx) ;;
         let '(removed_item, rest) := popped in
         setitem chat_id rest ;;
         query_edit_message_text update
           ("Removed: " +:+ item removed_item +:+
            " (Person: " +:+ person removed_item +:+ ")")
       else
         query_edit_message_text update "Error: Item not found."
     else ret tt) ;;
    ret (Some END).

Definition clear_list (update : Update) : M (option state) :=
  let keyboard :=
    [[Button "Yes, clear it" "clear_confirm"; Button "No, keep it" "clear_cancel"]] in
  reply_text_markup update "Are you sure you want to clear the entire list?" keyboard ;;
  ret None.

Definition clear_button_callback (update : Update) : M (option state) :=
  query_answer update ;;
  let chat_id := effective_chat update in
  data <- query_data update ;;
  if bool_decide (data = "clear_confirm") then
    setitem chat_id [] ;;
    query_edit_message_text update "The list has been cleared." ;;
    ret None
  else
    query_edit_message_text update
      "Clear operation cancelled. The list remains unchanged." ;;
    ret None.

(** ** Handlers, filters and conversations *)

(** A handler of python-telegram-bot: [check_update] says whether it takes an
    update, [callback] is the coroutine it then runs. *)
Record Handler := {
  check_update : Update → bool;
  callback : Update → M (option state)
}.

(** [CommandHandler(command, callback)] *)
Definition CommandHandler (command : string) (cb : Update → M (option state)) : Handler :=
  {| check_update u :=
       match payload u with
       | CommandMsg name => bool_decide (name = command)
       | _ => false
       end;
     callback := cb |}.

(** [MessageHandler(filters.TEXT & ~filters.COMMAND & ~filters.UpdateType.EDITED, callback)] *)
Definition MessageHandler (cb : Update → M (option state)) : Handler :=
  {| check_update u :=
       match payload u with
       | TextMsg _ => true
       | _ => false
       end;
     callback := cb |}.

(** [CallbackQueryHandler(callback)] takes every button press;
    [CallbackQueryHandler(callback, pattern="^p")] those whose data starts
    with [p]. *)
Definition CallbackQueryHandler (cb : Update → M (option state))
    (pattern : option string) : Handler :=
  {| check_update u :=
       match payload u with
       | CallbackQuery data =>
           match pattern with
           | Some p => Py.startswith data p
           | None => true
           end
       | _ => false
       end;
     callback := cb |}.

(** [ConversationHandler(entry_points, states, fallbacks)], every other
    argument at its default: conversations are kept per chat and per user,
    and [allow_reentry] is off. *)
Record ConversationHandler := {
  entry_points : list Handler;
  states : state → list Handler;
  fallbacks : list Handler
}.

Definition first_match (hs : list Handler) (u : Update) : option Handler :=
  List.find (λ h, check_update h u) hs.

(** [ConversationHandler.check_update]: with no conversation under way only
    an entry point can take the update; with one under way, the handlers of
    its state and then the fallbacks are asked, and the entry points are
    not. *)
Definition conversation_check (c : ConversationHandler) (st : option state)
    (u : Update) : option Handler :=
  match st with
  | None => first_match (entry_points c) u
  | Some s =>
      match first_match (states c s) u with
      | Some h => Some h
      | None => first_match (fallbacks c) u
      end
  end.

(** [ConversationHandler._update_state]: [END] forgets the conversation, any
    other state is recorded, [None] leaves things as they are. *)
Definition update_state (conversations : gmap (Z * Z) state) (key : Z * Z)
    (new_state : option state) : gmap (Z * Z) state :=
  match new_state with
  | Some END => delete key conversations
  | Some s => <[key := s]> conversations
  | None => conversations
  end.

Definition add_conv_handler : ConversationHandler :=
  {| entry_points := [CommandHandler "add" add_command];
     states s :=
       match s with
       | ITEM => [MessageHandler receive_item]
       | PERSON => [MessageHandler receive_person]
       | COMMENT => [MessageHandler receive_comment]
       | _ => []
       end;
     fallbacks := [CommandHandler "cancel" cancel] |}.

Definition remove_conv_handler : ConversationHandler :=
  {| entry_points := [CommandHandler "remove" remove_command];
     states s :=
       match s with
       | SELECTING_ITEM => [CallbackQueryHandler button_callback None]
       | _ => []
       end;
     fallbacks := [CommandHandler "cancel" cancel] |}.

(** ** The application *)

Inductive slot := AddConv | RemoveConv.

Inductive registered :=
| Plain (h : Handler)
| Conversation (w : slot) (c : ConversationHandler).

(** The handlers in the order [main] adds them, all to the default group. *)
Definition main : list registered :=
  [ Plain (CommandHandler "start" start);
    Plain (CommandHandler "help" help_command);
    Plain (CommandHandler "list" view_list);
    Plain (CommandHandler "clear" clear_list);
    Plain (CallbackQueryHandler clear_button_callback (Some "clear_"));
    Conversation AddConv add_conv_handler;
    Conversation RemoveConv remove_conv_handler ].

(** Everything the process holds in memory: [list_items], the [user_data]
    dictionary of every user, and the conversation table of each of the two
    [ConversationHandler]s. *)
Record bot := Bot {
  bot_list_items : gmap Z (list entry);
  bot_user_data : gmap Z (gmap string string);
  add_conv : gmap (Z * Z) state;
  remove_conv : gmap (Z * Z) state
}.

Definition initial : bot := Bot ∅ ∅ ∅ ∅.

Definition conversations (b : bot) (w : slot) : gmap (Z * Z) state :=
  match w with
  | AddConv => add_conv b
  | RemoveConv => remove_conv b
  end.

Definition set_conversations (b : bot) (w : slot) (c : gmap (Z * Z) state) : bot :=
  match w with
  | AddConv => Bot (bot_list_items b) (bot_user_data b) c (remove_conv b)
  | RemoveConv => Bot (bot_list_items b) (bot_user_data b) (add_conv b) c
  end.

(** The key of a conversation: [(chat_id, user_id)]. *)
Definition key (u : Update) : Z * Z := (effective_chat u, effective_user u).

(** [context.user_data] for a user: an empty dictionary until written. *)
Definition user_data_of (b : bot) (user_id : Z) : gmap string string :=
  default ∅ (bot_user_data b !! user_id).

(** The first registered handler that takes the update, and the
    conversation table it belongs to when it is part of a conversation. *)
Fixpoint select (hs : list registered) (b : bot) (u : Update)
    : option (option slot * Handler) :=
  match hs with
  | [] => None
  | Plain h :: rest =>
      if check_update h u then Some (None, h) else select rest b u
  | Conversation w c :: rest =>
      match conversation_check c (conversations b w !! key u) u with
      | Some h => Some (Some w, h)
      | None => select rest b u
      end
  end.

(** [Application.process_update]: at most one handler of the group runs.
    When its callback raises, the application logs the exception, the
    conversation stays in the state it was in, and what the callback had
    already written stays written. *)
Definition process_update (b : bot) (u : Update) : bot * list sent * option exn :=
  match select main b u with
  | None => (b, [], None)
  | Some (w, h) =>
      let user_id := effective_user u in
      let '(σ, out, r) := callback h u (Env (bot_list_items b) (user_data_of b user_id)) in
      let b1 := Bot (list_items σ) (<[user_id := user_data σ]> (bot_user_data b))
                    (add_conv b) (remove_conv b) in
      match r with
      | Raise e => (b1, out, Some e)
      | Ok new_state =>
          match w with
          | None => (b1, out, None)
          | Some w =>
              (set_conversations b1 w (update_state (conversations b1 w) (key u) new_state),
               out, None)
          end
      end
  end.

Definition step (b : bot) (u : Update) : bot := (process_update b u).1.1.

(** The bot after a sequence of updates, handled one after the other. *)
Definition run (b : bot) (us : list Update) : bot := foldl step b us.

(** The list a chat sees: an absent key reads as the empty list. *)
Definition entries (b : bot) (chat_id : Z) : list entry :=
  default [] (bot_list_items b !! chat_id).

(** * Vocabulary of the properties *)

(** A character that [int] does not skip and [split "_"] does not cut at. *)
Definition plain (c : ascii) : bool :=
  negb (Py.isspace c) && negb (Ascii.eqb c "_").

Fixpoint all_plain (s : string) : bool :=
  match s with
  | "" => true
  | String c r => plain c && all_plain r
  end.

(** The texts of the two confirmations that name an entry. *)
Definition added_text (e : entry) : string :=
  "Added: " +:+ item e +:+ " (Person: " +:+ person e +:+ ")" +:+
  Py.nl +:+ Py.nl +:+ "Use /list to view the updated list.".

Definition removed_text (e : entry) : string :=
  "Removed: " +:+ item e +:+ " (Person: " +:+ person e +:+ ")".

(** [σ'] differs from [σ] at most in the list of chat [c], which is still
    there if it was. *)
Definition frame (c : Z) (σ σ' : env) : Prop :=
  (∀ c', c' ≠ c → list_items σ' !! c' = list_items σ !! c') ∧
  (∀ c', is_Some (list_items σ !! c') → is_Some (list_items σ' !! c')).

(** A computation keeps to chat [c] when every run of it does. *)
Definition keeps (c : Z) {A} (m : M A) : Prop := ∀ σ, frame c σ (m σ).1.1.

(** A callback is local when, on every update, it keeps to the chat of that
    update. *)
Definition local (cb : Update → M (option state)) : Prop :=
  ∀ u, keeps (effective_chat u) (cb u).

(** Every handler a registered handler can hand an update to, with the
    conversation table it reports to. *)
Definition all_states : list state :=
  [ITEM; PERSON; COMMENT; CHOOSING_ACTION; SELECTING_ITEM; END].

Definition handlers_of (r : registered) : list (option slot * Handler) :=
  match r with
  | Plain h => [(None, h)]
  | Conversation w c =>
      map (pair (Some w))
          (entry_points c ++ flat_map (states c) all_states ++ fallbacks c)%list
  end.

(** Whoever is looking at a removal menu is in a chat whose key is in
    [list_items]. *)
Definition menus_have_lists (b : bot) : Prop :=
  ∀ k st, remove_conv b !! k = Some st → is_Some (bot_list_items b !! k.1).

(** The update with this chat, this user and this content. *)
Definition update_of (chat_id user_id : Z) (p : content) : Update :=
  {| effective_chat := chat_id; effective_user := user_id; payload := p |}.

(** Two entries in chat 1, and user 7 looking at the removal menu. *)
Definition menu_open : bot :=
  run initial
    [ update_of 1 7 (CommandMsg "add"); update_of 1 7 (TextMsg "Milk");
      update_of 1 7 (TextMsg "Alice"); update_of 1 7 (TextMsg "none");
      update_of 1 7 (CommandMsg "add"); update_of 1 7 (TextMsg "Eggs");
      update_of 1 7 (TextMsg "Bob"); update_of 1 7 (TextMsg "for the cake");
      update_of 1 7 (CommandMsg "remove") ].

(** One entry in chat 1, user 7 opens the removal menu, and user 8 confirms
    a /clear while the menu is still on screen. *)
Definition cleared_under_menu : list Update :=
  [ update_of 1 7 (CommandMsg "add"); update_of 1 7 (TextMsg "Milk");
    update_of 1 7 (TextMsg "Alice"); update_of 1 7 (TextMsg "none");
    update_of 1 7 (CommandMsg "remove");
    update_of 1 8 (CallbackQuery "clear_confirm") ].

(** [c] is the letter [lo] or its capital [up]. *)
Definition either (lo up c : ascii) : bool := Ascii.eqb c lo || Ascii.eqb c up.

(** The four letters n, o, n, e, each in either case, and nothing else. *)
Definition spells_none (t : string) : bool :=
  match t with
  | String a (String b (String c (String d ""))) =>
      either "n" "N" a && either "o" "O" b && either "n" "N" c && either "e" "E" d
  | _ => false
  end.

(** What a chat-and-user session consists of: the step of each of the two
    dialogs and the partial data the handlers find in [context.user_data]. *)
Definition session (b : bot) (c uid : Z)
    : option state * option state * gmap string string :=
  (add_conv b !! (c, uid), remove_conv b !! (c, uid), user_data_of b uid).

(** * Properties *)

(** ** The Python built-ins on sample inputs *)

Example lower_mixed : Py.lower "NoNe" = "none".
Proof. reflexivity. Qed.

Example split_tag : Py.split "_" "remove_12" = ["remove"; "12"].
Proof. reflexivity. Qed.

Example split_trailing : Py.split "_" "remove_" = ["remove"; ""].
Proof. reflexivity. Qed.

Example int_plain : Py.int "12" = Ok 12.
Proof. reflexivity. Qed.

Example int_negative : Py.int "-1" = Ok (-1).
Proof. reflexivity. Qed.

Example int_padded : Py.int " +7 " = Ok 7.
Proof. reflexivity. Qed.

Example int_empty : Py.int "" = Raise ValueError.
Proof. reflexivity. Qed.

Example int_double_sign : Py.int "+-1" = Raise ValueError.
Proof. reflexivity. Qed.

Example str_negative : Py.str (-40) = "-40".
Proof. reflexivity. Qed.

Example pop_last : Py.pop [10; 20; 30] (-1) = Ok (30, [10; 20]).
Proof. reflexivity. Qed.

Example pop_too_negative : Py.pop [10; 20; 30] (-4) = Raise IndexError.
Proof. reflexivity. Qed.

(** ** The Python built-ins on the texts the bot itself produces *)

Section PyFacts.

Lemma all_plain_uint d : all_plain (NilEmpty.string_of_uint d) = true.
Proof. induction d; simpl; auto. Qed.

Lemma rstrip_plain s : all_plain s = true → Py.rstrip s = s.
Proof.
  induction s as [|c r IH]; simpl; [done|].
  intros [Hc Hr]%andb_prop. rewrite (IH Hr).
  destruct r; [|done].
  unfold plain in Hc. apply andb_prop in Hc as [Hc _].
  by destruct (Py.isspace c).
Qed.

Lemma lstrip_plain s : all_plain s = true → Py.lstrip s = s.
Proof.
  destruct s as [|c r]; simpl; [done|].
  intros [Hc _]%andb_prop. unfold plain in Hc.
  apply andb_prop in Hc as [Hc _].
  by destruct (Py.isspace c).
Qed.

Lemma strip_plain s : all_plain s = true → Py.strip s = s.
Proof.
  intros H. unfold Py.strip. rewrite (lstrip_plain _ H). by apply rstrip_plain.
Qed.

Lemma split_plain s : all_plain s = true → Py.split "_" s = [s].
Proof.
  induction s as [|c r IH]; simpl; [done|].
  intros [Hc Hr]%andb_prop. rewrite (IH Hr).
  unfold plain in Hc. apply andb_prop in Hc as [_ Hc].
  by destruct (Ascii.eqb c "_").
Qed.

Lemma all_plain_str z : all_plain (Py.str z) = true.
Proof.
  destruct z as [|p|p]; [done| |]; unfold Py.str; simpl.
  - destruct (Pos.to_uint p); simpl; auto using all_plain_uint.
  - destruct (Pos.to_uint p); simpl; auto using all_plain_uint.
Qed.

Lemma digits_to_uint p :
  Py.digits (NilZero.string_of_uint (Pos.to_uint p)) = Ok (Z.pos p).
Proof.
  unfold Py.digits.
  rewrite NilZero.usu by apply DecimalPos.Unsigned.to_uint_nonnil.
  unfold Z.of_uint. by rewrite DecimalPos.Unsigned.of_to.
Qed.

(** [int(str(z)) == z] *)
Lemma int_str z : Py.int (Py.str z) = Ok z.
Proof.
  unfold Py.int. rewrite strip_plain by apply all_plain_str.
  destruct z as [|p|p]; [done| |]; unfold Py.str; simpl.
  - pose proof (digits_to_uint p) as H.
    destruct (Pos.to_uint p); simpl in *; exact H.
  - by rewrite digits_to_uint.
Qed.

(** The tag [f"remove_{i}"] of a menu button reads back as [i]. *)
Lemma split_remove_tag z :
  Py.split "_" ("remove_" +:+ Py.str z) = ["remove"; Py.str z].
Proof. simpl. by rewrite split_plain by apply all_plain_str. Qed.

Lemma startswith_remove_tag s : Py.startswith ("remove_" +:+ s) "remove_" = true.
Proof. by destruct s. Qed.

Lemma remove_tag_not_cancel s : "remove_" +:+ s ≠ "cancel".
Proof. done. Qed.

End PyFacts.

(** ** What each handler does to its environment *)

Ltac unfold_M :=
  unfold bind, ret, raise, lift, send, contains, getitem, setitem,
    user_data_set, user_data_get, user_data_clear, message_text, reply_text,
    reply_text_markup, query_answer, query_data, query_edit_message_text in *.

Lemma pop_nat {A} (l : list A) (n : nat) x :
  l !! n = Some x → Py.pop l (Z.of_nat n) = Ok (x, delete n l).
Proof.
  intros H. pose proof (lookup_lt_Some _ _ _ H) as Hlt. unfold Py.pop.
  destruct (Z.ltb_spec (Z.of_nat n) 0); [lia|].
  destruct (Z.ltb_spec (Z.of_nat n) 0); [lia|].
  destruct (Z.leb_spec (Z.of_nat (length l)) (Z.of_nat n)); [lia|].
  simpl. by rewrite Nat2Z.id, H.
Qed.

Lemma receive_item_spec u text σ :
  payload u = TextMsg text →
  receive_item u σ =
    (Env (list_items σ) (<["item" := text]> (user_data σ)),
     [Replied "Who will provide this item?"], Ok (Some PERSON)).
Proof. intros H. unfold receive_item. unfold_M. by rewrite H. Qed.

Lemma receive_person_spec u text σ :
  payload u = TextMsg text →
  receive_person u σ =
    (Env (list_items σ) (<["person" := text]> (user_data σ)),
     [Replied "Any comments? (or type 'none' if no comments)"], Ok (Some COMMENT)).
Proof. intros H. unfold receive_person. unfold_M. by rewrite H. Qed.

Lemma receive_comment_spec u text σ i p :
  payload u = TextMsg text →
  user_data σ !! "item" = Some i →
  user_data σ !! "person" = Some p →
  let e := Entry i p (normalize_comment text) in
  receive_comment u σ =
    (Env (<[effective_chat u := (default [] (list_items σ !! effective_chat u) ++ [e])%list]>
            (list_items σ)) ∅,
     [Replied (added_text e)], Ok (Some END)).
Proof.
  intros Hu Hi Hp e. unfold receive_comment. unfold_M. rewrite Hu.
  destruct (list_items σ !! effective_chat u) as [l|] eqn:Hl; simpl.
  - rewrite Hi, Hp; simpl. by rewrite Hl.
  - rewrite Hi; simpl. rewrite Hp; simpl. rewrite lookup_insert_eq; simpl.
    by rewrite insert_insert_eq.
Qed.

(** Without both answers in [user_data] the dictionary literal raises, after
    the chat's list has been created. *)
Lemma receive_comment_missing u text σ :
  payload u = TextMsg text →
  user_data σ !! "item" = None ∨ user_data σ !! "person" = None →
  ∃ σ', receive_comment u σ = (σ', [], Raise KeyError).
Proof.
  intros Hu H. unfold receive_comment. unfold_M. rewrite Hu.
  destruct (list_items σ !! effective_chat u) as [l|]; simpl;
    destruct (user_data σ !! "item"); simpl;
    destruct (user_data σ !! "person"); simpl;
    destruct H; try done; eauto.
Qed.

Lemma cancel_spec u name σ :
  payload u = CommandMsg name →
  cancel u σ = (Env (list_items σ) ∅, [Replied "Operation cancelled."], Ok (Some END)).
Proof. intros H. unfold cancel. unfold_M. by rewrite H. Qed.

Lemma add_command_spec u name σ :
  payload u = CommandMsg name →
  add_command u σ = (σ, [Replied "Please enter the item name:"], Ok (Some ITEM)).
Proof. intros H. unfold add_command. unfold_M. by rewrite H. Qed.

(** From here on the built-ins stay folded when a handler is unfolded. *)
Arguments Py.startswith : simpl never.
Arguments Py.split : simpl never.
Arguments Py.index : simpl never.
Arguments Py.int : simpl never.
Arguments Py.str : simpl never.
Arguments Py.pop : simpl never.

Lemma remove_command_spec u name σ :
  payload u = CommandMsg name →
  remove_command u σ =
    match list_items σ !! effective_chat u with
    | None | Some [] =>
        (σ, [Replied "The list is empty. Nothing to remove."], Ok (Some END))
    | Some l =>
        (σ, [RepliedWithMarkup "Select an item to remove:" (remove_keyboard l)],
         Ok (Some SELECTING_ITEM))
    end.
Proof.
  intros H. unfold remove_command, absent_or_empty. unfold_M. rewrite H.
  destruct (list_items σ !! effective_chat u) as [[|e l]|] eqn:Hl; simpl;
    rewrite ?Hl; simpl; rewrite ?Hl; done.
Qed.

(** [button_callback] on a tag that starts with ["remove_"], once the tag is
    read as an index and the chat's list is found. *)
Lemma button_callback_remove u data piece idx l σ :
  payload u = CallbackQuery data →
  data ≠ "cancel" →
  Py.startswith data "remove_" = true →
  Py.index (Py.split "_" data) 1 = Ok piece →
  Py.int piece = Ok idx →
  list_items σ !! effective_chat u = Some l →
  button_callback u σ =
    if idx <? Z.of_nat (length l) then
      match Py.pop l idx with
      | Ok (removed_item, rest) =>
          (Env (<[effective_chat u := rest]> (list_items σ)) (user_data σ),
           [Answered; Edited (removed_text removed_item)], Ok (Some END))
      | Raise e => (σ, [Answered], Raise e)
      end
    else (σ, [Answered; Edited "Error: Item not found."], Ok (Some END)).
Proof.
  intros Hu Hc Hs Hp Hi Hl. unfold button_callback. unfold_M. rewrite Hu; simpl.
  rewrite (bool_decide_eq_false_2 _ Hc), Hs; simpl.
  rewrite Hp; simpl. rewrite Hi; simpl. rewrite Hl; simpl.
  destruct (idx <? Z.of_nat (length l)); [|by destruct σ].
  rewrite Hl; simpl.
  destruct (Py.pop l idx) as [[x rest]|e]; by destruct σ.
Qed.

Lemma button_callback_cancel u σ :
  payload u = CallbackQuery "cancel" →
  button_callback u σ = (σ, [Answered; Edited "Operation cancelled."], Ok (Some END)).
Proof. intros Hu. unfold button_callback. unfold_M. rewrite Hu; simpl. done. Qed.

Lemma clear_button_callback_spec u data σ :
  payload u = CallbackQuery data →
  clear_button_callback u σ =
    if bool_decide (data = "clear_confirm") then
      (Env (<[effective_chat u := []]> (list_items σ)) (user_data σ),
       [Answered; Edited "The list has been cleared."], Ok None)
    else
      (σ, [Answered; Edited "Clear operation cancelled. The list remains unchanged."],
       Ok None).
Proof.
  intros Hu. unfold clear_button_callback. unfold_M. rewrite Hu; simpl.
  destruct (bool_decide (data = "clear_confirm")); by destruct σ.
Qed.

(** ** Which handler takes which update *)

Lemma select_text b u text :
  payload u = TextMsg text →
  select main b u =
    match add_conv b !! key u with
    | Some ITEM => Some (Some AddConv, MessageHandler receive_item)
    | Some PERSON => Some (Some AddConv, MessageHandler receive_person)
    | Some COMMENT => Some (Some AddConv, MessageHandler receive_comment)
    | _ => None
    end.
Proof.
  intros H. unfold main, select, conversation_check, first_match. simpl. rewrite H.
  destruct (add_conv b !! key u) as [[]|]; simpl; rewrite ?H; try done;
    destruct (remove_conv b !! key u) as [[]|]; simpl; rewrite ?H; done.
Qed.

Lemma select_callback b u data :
  payload u = CallbackQuery data →
  select main b u =
    if Py.startswith data "clear_" then
      Some (None, CallbackQueryHandler clear_button_callback (Some "clear_"))
    else
      match remove_conv b !! key u with
      | Some SELECTING_ITEM => Some (Some RemoveConv, CallbackQueryHandler button_callback None)
      | _ => None
      end.
Proof.
  intros H. unfold main, select, conversation_check, first_match. simpl. rewrite H.
  destruct (Py.startswith data "clear_"); [done|].
  destruct (add_conv b !! key u) as [[]|]; simpl; rewrite ?H; try done;
    destruct (remove_conv b !! key u) as [[]|]; simpl; rewrite ?H; done.
Qed.

Lemma select_add b u :
  payload u = CommandMsg "add" →
  select main b u =
    match add_conv b !! key u with
    | None => Some (Some AddConv, CommandHandler "add" add_command)
    | Some _ => None
    end.
Proof.
  intros H. unfold main, select, conversation_check, first_match. simpl. rewrite H. simpl.
  destruct (add_conv b !! key u) as [[]|]; simpl; rewrite ?H; try done;
    destruct (remove_conv b !! key u) as [[]|]; simpl; rewrite ?H; done.
Qed.

Lemma select_remove b u :
  payload u = CommandMsg "remove" →
  select main b u =
    match remove_conv b !! key u with
    | None => Some (Some RemoveConv, CommandHandler "remove" remove_command)
    | Some _ => None
    end.
Proof.
  intros H. unfold main, select, conversation_check, first_match. simpl. rewrite H. simpl.
  destruct (add_conv b !! key u) as [[]|]; simpl; rewrite ?H; try done;
    destruct (remove_conv b !! key u) as [[]|]; simpl; rewrite ?H; done.
Qed.

Lemma select_cancel b u :
  payload u = CommandMsg "cancel" →
  select main b u =
    match add_conv b !! key u, remove_conv b !! key u with
    | Some _, _ => Some (Some AddConv, CommandHandler "cancel" cancel)
    | None, Some _ => Some (Some RemoveConv, CommandHandler "cancel" cancel)
    | None, None => None
    end.
Proof.
  intros H. unfold main, select, conversation_check, first_match. simpl. rewrite H. simpl.
  destruct (add_conv b !! key u) as [[]|]; simpl; rewrite ?H; try done;
    destruct (remove_conv b !! key u) as [[]|]; simpl; rewrite ?H; done.
Qed.

(** ** Every handler writes to the list of its own chat only, and never
       removes a key *)

Lemma frame_refl c σ : frame c σ σ.
Proof. by split. Qed.

Lemma frame_trans c σ1 σ2 σ3 : frame c σ1 σ2 → frame c σ2 σ3 → frame c σ1 σ3.
Proof.
  intros [H1 H2] [H3 H4]. split.
  - intros c' Hc. by rewrite H3, H1.
  - auto.
Qed.

Section Keeps.
Context (c : Z).

Lemma keeps_ret {A} (a : A) : keeps c (ret a).
Proof. intros σ. apply frame_refl. Qed.

Lemma keeps_raise {A} e : keeps c (@raise A e).
Proof. intros σ. apply frame_refl. Qed.

Lemma keeps_lift {A} (r : result A) : keeps c (lift r).
Proof. intros σ. apply frame_refl. Qed.

Lemma keeps_send o : keeps c (send o).
Proof. intros σ. apply frame_refl. Qed.

Lemma keeps_contains c' : keeps c (contains c').
Proof. intros σ. apply frame_refl. Qed.

Lemma keeps_getitem c' : keeps c (getitem c').
Proof. intros σ. unfold getitem. destruct (list_items σ !! c'); apply frame_refl. Qed.

Lemma keeps_setitem l : keeps c (setitem c l).
Proof.
  intros σ. split; simpl.
  - intros c' Hc. by rewrite lookup_insert_ne.
  - intros c' Hc. destruct (decide (c = c')) as [->|Hne].
    + rewrite lookup_insert_eq. eauto.
    + by rewrite lookup_insert_ne.
Qed.

Lemma keeps_user_data_set k v : keeps c (user_data_set k v).
Proof. intros σ. by split. Qed.

Lemma keeps_user_data_get k : keeps c (user_data_get k).
Proof. intros σ. unfold user_data_get. destruct (user_data σ !! k); apply frame_refl. Qed.

Lemma keeps_user_data_clear : keeps c user_data_clear.
Proof. intros σ. by split. Qed.

Lemma keeps_bind {A B} (m : M A) (k : A → M B) :
  keeps c m → (∀ a, keeps c (k a)) → keeps c (bind m k).
Proof.
  intros Hm Hk σ. unfold bind. specialize (Hm σ).
  destruct (m σ) as [[σ1 out1] [a|e]]; simpl in *; [|done].
  specialize (Hk a σ1). destruct (k a σ1) as [[σ2 out2] r]; simpl in *.
  by eapply frame_trans.
Qed.
End Keeps.

Ltac keeps_step :=
  first
    [ apply keeps_bind; [|intros ?]
    | apply keeps_ret | apply keeps_raise | apply keeps_lift | apply keeps_send
    | apply keeps_contains | apply keeps_getitem | apply keeps_setitem
    | apply keeps_user_data_set | apply keeps_user_data_get
    | apply keeps_user_data_clear
    | match goal with
      | |- keeps _ (if ?b then _ else _) => destruct b
      | |- keeps _ (match payload ?u with _ => _ end) => destruct (payload u)
      | |- keeps _ (let '(_, _) := ?p in _) => destruct p
      end ].

Ltac keeps_auto :=
  unfold message_text, reply_text, reply_text_markup, query_answer, query_data,
    query_edit_message_text, absent_or_empty;
  repeat keeps_step.

Lemma start_local : local start.
Proof. intros u. unfold start. keeps_auto. Qed.

Lemma help_command_local : local help_command.
Proof. intros u. unfold help_command. keeps_auto. Qed.

Lemma view_list_local : local view_list.
Proof. intros u. unfold view_list. keeps_auto. Qed.

Lemma add_command_local : local add_command.
Proof. intros u. unfold add_command. keeps_auto. Qed.

Lemma receive_item_local : local receive_item.
Proof. intros u. unfold receive_item. keeps_auto. Qed.

Lemma receive_person_local : local receive_person.
Proof. intros u. unfold receive_person. keeps_auto. Qed.

Lemma receive_comment_local : local receive_comment.
Proof. intros u. unfold receive_comment. keeps_auto. Qed.

Lemma cancel_local : local cancel.
Proof. intros u. unfold cancel. keeps_auto. Qed.

Lemma remove_command_local : local remove_command.
Proof. intros u. unfold remove_command. keeps_auto. Qed.

Lemma button_callback_local : local button_callback.
Proof. intros u. unfold button_callback. keeps_auto. Qed.

Lemma clear_list_local : local clear_list.
Proof. intros u. unfold clear_list. keeps_auto. Qed.

Lemma clear_button_callback_local : local clear_button_callback.
Proof. intros u. unfold clear_button_callback. keeps_auto. Qed.

(** ** The dispatcher only ever runs a registered callback *)

Lemma first_match_in hs u h : first_match hs u = Some h → In h hs.
Proof. intros H. by apply List.find_some in H as [H _]. Qed.

Lemma conversation_check_in c st u h :
  conversation_check c st u = Some h →
  In h (entry_points c ++ flat_map (states c) all_states ++ fallbacks c)%list.
Proof.
  unfold conversation_check. destruct st as [s|].
  - destruct (first_match (states c s) u) as [h'|] eqn:E.
    + intros [= ->]. apply first_match_in in E.
      apply in_or_app. right. apply in_or_app. left.
      apply in_flat_map. exists s. split; [|done].
      destruct s; simpl; auto 10.
    + intros H%first_match_in. apply in_or_app. right. apply in_or_app. by right.
  - intros H%first_match_in. apply in_or_app. by left.
Qed.

Lemma select_in hs b u w h :
  select hs b u = Some (w, h) → In (w, h) (flat_map handlers_of hs).
Proof.
  induction hs as [|[h'|w' c] hs IH]; simpl; [done| |].
  - destruct (check_update h' u); [intros [= <- <-]; by left | auto].
  - destruct (conversation_check c (conversations b w' !! key u) u) as [h'|] eqn:E.
    + intros [= <- <-]. apply in_or_app. left.
      apply in_map. by eapply conversation_check_in.
    + intros H. apply in_or_app. right. auto.
Qed.

Lemma main_local b u w h : select main b u = Some (w, h) → local (callback h).
Proof.
  intros H%select_in. simpl in H.
  repeat (destruct H as [[= <- <-]|H]; simpl;
          [auto using start_local, help_command_local, view_list_local,
             add_command_local, receive_item_local, receive_person_local,
             receive_comment_local, cancel_local, remove_command_local,
             button_callback_local, clear_list_local,
             clear_button_callback_local|]).
  done.
Qed.

(** The callbacks that can set the state of a Remove-Item conversation. *)
Lemma main_remove_conv b u h :
  select main b u = Some (Some RemoveConv, h) →
  callback h = remove_command ∨ callback h = button_callback ∨ callback h = cancel.
Proof.
  intros H%select_in. simpl in H.
  repeat (destruct H as [H|H];
          [first [discriminate H | injection H as <-; simpl; by auto]|]).
  done.
Qed.

(** ** One update: what can change *)

Lemma update_state_other conversations k k' new_state :
  k' ≠ k → update_state conversations k new_state !! k' = conversations !! k'.
Proof.
  intros H. unfold update_state. destruct new_state as [[]|]; try done;
    by rewrite ?lookup_insert_ne, ?lookup_delete_ne.
Qed.

(** Whatever the update, it can change the list of its own chat only, takes
    no key out of [list_items], moves only the conversation of its own chat
    and user, and writes only to the data of its own user. *)
Lemma process_update_frame b u :
  let b' := step b u in
  (∀ c, c ≠ effective_chat u → bot_list_items b' !! c = bot_list_items b !! c) ∧
  (∀ c, is_Some (bot_list_items b !! c) → is_Some (bot_list_items b' !! c)) ∧
  (∀ k, k ≠ key u →
     add_conv b' !! k = add_conv b !! k ∧ remove_conv b' !! k = remove_conv b !! k) ∧
  (∀ v, v ≠ effective_user u → user_data_of b' v = user_data_of b v).
Proof.
  unfold step, process_update.
  destruct (select main b u) as [[w h]|] eqn:Hsel; simpl; [|done].
  pose proof (main_local _ _ _ _ Hsel u
                (Env (bot_list_items b) (user_data_of b (effective_user u)))) as [Hf Hd].
  destruct (callback h u _) as [[σ out] [new_state|e]]; simpl in *.
  - destruct w as [[]|]; simpl; repeat split; auto;
      try (intros; by apply update_state_other);
      intros; unfold user_data_of; simpl; by rewrite lookup_insert_ne.
  - repeat split; auto.
    intros; unfold user_data_of; simpl; by rewrite lookup_insert_ne.
Qed.

(** ** What the callbacks of the Remove-Item conversation return *)

Lemma cancel_returns u σ σ' out r :
  cancel u σ = (σ', out, Ok r) → r = Some END.
Proof.
  unfold cancel. unfold_M. intros H.
  repeat (case_match; simplify_eq/=); done.
Qed.

Lemma button_callback_returns u σ σ' out r :
  button_callback u σ = (σ', out, Ok r) → r = Some END.
Proof.
  unfold button_callback. unfold_M. intros H.
  repeat (case_match; simplify_eq/=); done.
Qed.

Lemma remove_command_returns u σ σ' out r :
  remove_command u σ = (σ', out, Ok r) →
  r = Some END ∨
  (r = Some SELECTING_ITEM ∧ ∃ e l, list_items σ' !! effective_chat u = Some (e :: l)).
Proof.
  unfold remove_command, absent_or_empty. unfold_M. intros H.
  repeat (case_match; simplify_eq/=); auto.
  all: unfold send in *; simplify_eq/=; right; split; [done|].
  all: match goal with
       | H : bool_decide (_ = []) = false |- _ => apply bool_decide_eq_false in H
       end.
  all: match goal with
       | H : list_items _ !! _ = Some ?l |- _ => destruct l; [done|eauto]
       end.
Qed.

Lemma index_no_KeyError {A} (l : list A) i : Py.index l i ≠ Raise KeyError.
Proof. unfold Py.index. by destruct (l !! i). Qed.

Lemma int_no_KeyError s : Py.int s ≠ Raise KeyError.
Proof.
  unfold Py.int, Py.digits.
  repeat case_match; simplify_eq; done.
Qed.

Lemma pop_no_KeyError {A} (l : list A) i : Py.pop l i ≠ Raise KeyError.
Proof. unfold Py.pop. repeat case_match; done. Qed.

(** With the chat's list in place, [button_callback] has no [KeyError] to
    raise. *)
Lemma button_callback_no_KeyError u σ :
  is_Some (list_items σ !! effective_chat u) →
  (button_callback u σ).2 ≠ Raise KeyError.
Proof.
  intros [l Hl]. unfold button_callback. unfold_M.
  destruct (payload u) as [name|text|data]; simpl; try done.
  destruct (bool_decide (data = "cancel")); simpl; [done|].
  destruct (Py.startswith data "remove_"); simpl; [|done].
  pose proof (index_no_KeyError (Py.split "_" data) 1).
  destruct (Py.index _ _) as [piece|e]; simpl; [|congruence].
  pose proof (int_no_KeyError piece).
  destruct (Py.int piece) as [idx|e]; simpl; [|congruence].
  rewrite Hl; simpl.
  destruct (idx <? Z.of_nat (length l)); simpl; [|done].
  rewrite Hl; simpl.
  pose proof (pop_no_KeyError l idx).
  destruct (Py.pop l idx) as [[x rest]|e]; simpl; [done|congruence].
Qed.

Lemma clear_button_callback_no_exn u data σ :
  payload u = CallbackQuery data → ∃ σ' out, clear_button_callback u σ = (σ', out, Ok None).
Proof.
  intros H. rewrite (clear_button_callback_spec _ _ _ H). case_match; eauto.
Qed.

(** ** An invariant of the running bot *)

Lemma menus_have_lists_initial : menus_have_lists initial.
Proof. intros k st. simpl. by rewrite lookup_empty. Qed.

Lemma menus_have_lists_step b u : menus_have_lists b → menus_have_lists (step b u).
Proof.
  intros Hinv. unfold step, process_update.
  destruct (select main b u) as [[w h]|] eqn:Hsel; [|done].
  pose proof (main_local _ _ _ _ Hsel u
                (Env (bot_list_items b) (user_data_of b (effective_user u)))) as [_ Hd].
  destruct (callback h u _) as [[σ out] [r|e]] eqn:Hcb;
    [|intros k st Hk; simpl in *; by eauto].
  destruct w as [[]|]; try (intros k st Hk; simpl in *; by eauto).
  intros k st Hk. simpl in Hk, Hd |- *.
  destruct (decide (k = key u)) as [->|Hne].
  - apply main_remove_conv in Hsel.
    destruct Hsel as [E|[E|E]]; rewrite E in Hcb.
    + apply remove_command_returns in Hcb as [->|[-> (e & l & Hl)]].
      * simpl in Hk. by rewrite lookup_delete_eq in Hk.
      * simpl. eauto.
    + apply button_callback_returns in Hcb as ->.
      simpl in Hk. by rewrite lookup_delete_eq in Hk.
    + apply cancel_returns in Hcb as ->.
      simpl in Hk. by rewrite lookup_delete_eq in Hk.
  - rewrite update_state_other in Hk by done. eauto.
Qed.

Lemma menus_have_lists_run b us : menus_have_lists b → menus_have_lists (run b us).
Proof.
  unfold run. revert b. induction us as [|u us IH]; simpl; [done|].
  intros b Hb. apply IH. by apply menus_have_lists_step.
Qed.

Lemma list_items_kept_run b us c :
  is_Some (bot_list_items b !! c) → is_Some (bot_list_items (run b us) !! c).
Proof.
  unfold run. revert b. induction us as [|u us IH]; simpl; [done|].
  intros b Hb. apply IH. by apply process_update_frame.
Qed.

(** ** One update, case by case *)

Lemma entries_written l ud a r c x : entries (Bot (<[c := x]> l) ud a r) c = x.
Proof. unfold entries. simpl. by rewrite lookup_insert_eq. Qed.

Lemma user_data_of_written l ud a r v d :
  user_data_of (Bot l (<[v := d]> ud) a r) v = d.
Proof. unfold user_data_of. simpl. by rewrite lookup_insert_eq. Qed.

Lemma process_add_idle b u :
  payload u = CommandMsg "add" →
  add_conv b !! key u = None →
  process_update b u =
    (Bot (bot_list_items b)
         (<[effective_user u := user_data_of b (effective_user u)]> (bot_user_data b))
         (<[key u := ITEM]> (add_conv b)) (remove_conv b),
     [Replied "Please enter the item name:"], None).
Proof.
  intros Hu Hst. unfold process_update.
  rewrite (select_add _ _ Hu), Hst. simpl.
  by rewrite (add_command_spec _ _ _ Hu).
Qed.

Lemma process_add_busy b u st :
  payload u = CommandMsg "add" →
  add_conv b !! key u = Some st →
  process_update b u = (b, [], None).
Proof.
  intros Hu Hst. unfold process_update. by rewrite (select_add _ _ Hu), Hst.
Qed.

Lemma process_item b u text :
  payload u = TextMsg text →
  add_conv b !! key u = Some ITEM →
  process_update b u =
    (Bot (bot_list_items b)
         (<[effective_user u := <["item" := text]> (user_data_of b (effective_user u))]>
            (bot_user_data b))
         (<[key u := PERSON]> (add_conv b)) (remove_conv b),
     [Replied "Who will provide this item?"], None).
Proof.
  intros Hu Hst. unfold process_update.
  rewrite (select_text _ _ _ Hu), Hst. simpl.
  by rewrite (receive_item_spec _ _ _ Hu).
Qed.

Lemma process_person b u text :
  payload u = TextMsg text →
  add_conv b !! key u = Some PERSON →
  process_update b u =
    (Bot (bot_list_items b)
         (<[effective_user u := <["person" := text]> (user_data_of b (effective_user u))]>
            (bot_user_data b))
         (<[key u := COMMENT]> (add_conv b)) (remove_conv b),
     [Replied "Any comments? (or type 'none' if no comments)"], None).
Proof.
  intros Hu Hst. unfold process_update.
  rewrite (select_text _ _ _ Hu), Hst. simpl.
  by rewrite (receive_person_spec _ _ _ Hu).
Qed.

Lemma process_comment b u text i p :
  payload u = TextMsg text →
  add_conv b !! key u = Some COMMENT →
  user_data_of b (effective_user u) !! "item" = Some i →
  user_data_of b (effective_user u) !! "person" = Some p →
  let e := Entry i p (normalize_comment text) in
  process_update b u =
    (Bot (<[effective_chat u := (entries b (effective_chat u) ++ [e])%list]>
            (bot_list_items b))
         (<[effective_user u := ∅]> (bot_user_data b))
         (delete (key u) (add_conv b)) (remove_conv b),
     [Replied (added_text e)], None).
Proof.
  intros Hu Hst Hi Hp e. unfold process_update.
  rewrite (select_text _ _ _ Hu), Hst. simpl.
  by rewrite (receive_comment_spec u text (Env _ _) i p Hu Hi Hp).
Qed.

Lemma process_cancel_add b u st :
  payload u = CommandMsg "cancel" →
  add_conv b !! key u = Some st →
  process_update b u =
    (Bot (bot_list_items b) (<[effective_user u := ∅]> (bot_user_data b))
         (delete (key u) (add_conv b)) (remove_conv b),
     [Replied "Operation cancelled."], None).
Proof.
  intros Hu Hst. unfold process_update.
  rewrite (select_cancel _ _ Hu), Hst. simpl.
  by rewrite (cancel_spec _ _ _ Hu).
Qed.

Lemma process_remove_idle b u :
  payload u = CommandMsg "remove" →
  remove_conv b !! key u = None →
  let b1 := Bot (bot_list_items b)
                (<[effective_user u := user_data_of b (effective_user u)]> (bot_user_data b))
                (add_conv b) in
  process_update b u =
    match bot_list_items b !! effective_chat u with
    | None | Some [] =>
        (b1 (delete (key u) (remove_conv b)),
         [Replied "The list is empty. Nothing to remove."], None)
    | Some l =>
        (b1 (<[key u := SELECTING_ITEM]> (remove_conv b)),
         [RepliedWithMarkup "Select an item to remove:" (remove_keyboard l)], None)
    end.
Proof.
  intros Hu Hst. unfold process_update.
  rewrite (select_remove _ _ Hu), Hst. simpl.
  rewrite (remove_command_spec _ _ _ Hu). simpl.
  by destruct (bot_list_items b !! effective_chat u) as [[|e l]|].
Qed.

Lemma process_clear_button b u data :
  payload u = CallbackQuery data →
  Py.startswith data "clear_" = true →
  process_update b u =
    (Bot (if bool_decide (data = "clear_confirm")
          then <[effective_chat u := []]> (bot_list_items b)
          else bot_list_items b)
         (<[effective_user u := user_data_of b (effective_user u)]> (bot_user_data b))
         (add_conv b) (remove_conv b),
     [Answered;
      Edited (if bool_decide (data = "clear_confirm")
              then "The list has been cleared."
              else "Clear operation cancelled. The list remains unchanged.")],
     None).
Proof.
  intros Hu Hs. unfold process_update.
  rewrite (select_callback _ _ _ Hu), Hs. simpl.
  rewrite (clear_button_callback_spec _ _ _ Hu).
  by destruct (bool_decide (data = "clear_confirm")).
Qed.

(** A button press with a tag [remove_<idx>] while the removal menu is
    open. *)
Lemma process_remove_button b u data piece idx l :
  payload u = CallbackQuery data →
  data ≠ "cancel" →
  Py.startswith data "clear_" = false →
  Py.startswith data "remove_" = true →
  Py.index (Py.split "_" data) 1 = Ok piece →
  Py.int piece = Ok idx →
  remove_conv b !! key u = Some SELECTING_ITEM →
  bot_list_items b !! effective_chat u = Some l →
  let ud := <[effective_user u := user_data_of b (effective_user u)]> (bot_user_data b) in
  process_update b u =
    if idx <? Z.of_nat (length l) then
      match Py.pop l idx with
      | Ok (removed_item, rest) =>
          (Bot (<[effective_chat u := rest]> (bot_list_items b)) ud (add_conv b)
               (delete (key u) (remove_conv b)),
           [Answered; Edited (removed_text removed_item)], None)
      | Raise e => (Bot (bot_list_items b) ud (add_conv b) (remove_conv b),
                    [Answered], Some e)
      end
    else
      (Bot (bot_list_items b) ud (add_conv b) (delete (key u) (remove_conv b)),
       [Answered; Edited "Error: Item not found."], None).
Proof.
  intros Hu Hc Hcl Hs Hp Hi Hst Hl ud. unfold process_update.
  rewrite (select_callback _ _ _ Hu), Hcl, Hst. simpl.
  rewrite (button_callback_remove _ _ _ _ l _ Hu Hc Hs Hp Hi) by done.
  destruct (idx <? Z.of_nat (length l)); [|done].
  by destruct (Py.pop l idx) as [[x rest]|e].
Qed.

(** ** Removal by button *)

Lemma remove_tag_facts z :
  let data := "remove_" +:+ Py.str z in
  data ≠ "cancel" ∧ Py.startswith data "clear_" = false ∧
  Py.startswith data "remove_" = true ∧
  Py.index (Py.split "_" data) 1 = Ok (Py.str z) ∧
  Py.int (Py.str z) = Ok z.
Proof.
  intros data. subst data. split; [apply remove_tag_not_cancel|].
  split; [reflexivity|]. split; [apply startswith_remove_tag|].
  split; [by rewrite split_remove_tag | apply int_str].
Qed.

(** The button for position [n] of the menu, pressed while the menu is open
    and the chat's list is [l]: the entry at [n] goes if there is one, and
    otherwise the list stays and the user is told. *)
Lemma remove_button_nat b c uid l (n : nat) :
  remove_conv b !! (c, uid) = Some SELECTING_ITEM →
  bot_list_items b !! c = Some l →
  let ud := <[uid := user_data_of b uid]> (bot_user_data b) in
  process_update b (update_of c uid (CallbackQuery ("remove_" +:+ Py.str (Z.of_nat n)))) =
    match l !! n with
    | Some x =>
        (Bot (<[c := delete n l]> (bot_list_items b)) ud (add_conv b)
             (delete (c, uid) (remove_conv b)),
         [Answered; Edited (removed_text x)], None)
    | None =>
        (Bot (bot_list_items b) ud (add_conv b) (delete (c, uid) (remove_conv b)),
         [Answered; Edited "Error: Item not found."], None)
    end.
Proof.
  intros Hst Hl ud.
  destruct (remove_tag_facts (Z.of_nat n)) as (Hc & Hcl & Hs & Hp & Hi).
  rewrite (process_remove_button b (update_of c uid _) _ _ _ l
             eq_refl Hc Hcl Hs Hp Hi Hst Hl).
  simpl. destruct (l !! n) as [x|] eqn:Hn.
  - pose proof (lookup_lt_Some _ _ _ Hn).
    destruct (Z.ltb_spec (Z.of_nat n) (Z.of_nat (length l))); [|lia].
    by rewrite (pop_nat _ _ _ Hn).
  - pose proof (lookup_ge_None_1 _ _ Hn).
    destruct (Z.ltb_spec (Z.of_nat n) (Z.of_nat (length l))); [lia|done].
Qed.

(** What removing position [n] does to the list: one entry fewer, the
    entries before [n] where they were, the later ones one place down. *)
Lemma delete_shifts {A} (l : list A) (n : nat) x :
  l !! n = Some x →
  length (delete n l) = (length l - 1)%nat ∧
  (∀ j : nat, (j < n)%nat → delete n l !! j = l !! j) ∧
  (∀ j : nat, (n ≤ j)%nat → delete n l !! j = l !! S j).
Proof.
  intros H. split; [apply length_delete; eauto|].
  split; intros j Hj.
  - by apply list_lookup_delete_lt.
  - by apply list_lookup_delete_ge.
Qed.

(** Altogether, for a position [n] counted from 0: the removal goes through
    exactly when [n] is below the length of the list; then the entry at [n]
    is the one named in the confirmation, the list is one shorter, the
    entries before [n] stay and those after move one place down; otherwise
    the list stays and the error text is sent. Either way the dialog is
    over. *)
Lemma remove_button_in_range b c uid l (n : nat) :
  remove_conv b !! (c, uid) = Some SELECTING_ITEM →
  bot_list_items b !! c = Some l →
  let '(b', out, err) :=
    process_update b
      (update_of c uid (CallbackQuery ("remove_" +:+ Py.str (Z.of_nat n)))) in
  err = None ∧
  remove_conv b' !! (c, uid) = None ∧
  match l !! n with
  | Some x =>
      (n < length l)%nat ∧
      out = [Answered; Edited (removed_text x)] ∧
      entries b' c = delete n l ∧
      length (entries b' c) = (length l - 1)%nat ∧
      (∀ j : nat, (j < n)%nat → entries b' c !! j = l !! j) ∧
      (∀ j : nat, (n ≤ j)%nat → entries b' c !! j = l !! S j)
  | None =>
      (length l ≤ n)%nat ∧
      out = [Answered; Edited "Error: Item not found."] ∧
      bot_list_items b' = bot_list_items b
  end.
Proof.
  intros Hst Hl. rewrite (remove_button_nat b c uid l n Hst Hl).
  destruct (l !! n) as [x|] eqn:Hn.
  - destruct (delete_shifts l n x Hn) as (Hlen & Hlt & Hge).
    rewrite entries_written.
    split; [done|]. split; [simpl; apply lookup_delete_eq|].
    split; [by eapply lookup_lt_Some|]. by repeat split.
  - split; [done|]. split; [simpl; apply lookup_delete_eq|].
    split; [by apply lookup_ge_None_1|]. by split.
Qed.

Lemma pop_negative {A} (l : list A) (k : nat) :
  Py.pop l (- Z.of_nat (S k)) =
    match l !! (length l - S k)%nat with
    | Some x =>
        if bool_decide (k < length l)%nat
        then Ok (x, delete (length l - S k)%nat l)
        else Raise IndexError
    | None => Raise IndexError
    end.
Proof.
  unfold Py.pop.
  destruct (Z.ltb_spec (- Z.of_nat (S k)) 0); [|lia].
  case_bool_decide as Hk.
  - destruct (Z.ltb_spec (- Z.of_nat (S k) + Z.of_nat (length l)) 0); [lia|].
    destruct (Z.leb_spec (Z.of_nat (length l)) (- Z.of_nat (S k) + Z.of_nat (length l)));
      [lia|]. simpl.
    replace (Z.to_nat (- Z.of_nat (S k) + Z.of_nat (length l)))
      with (length l - S k)%nat by lia.
    by destruct (l !! (length l - S k)%nat).
  - destruct (Z.ltb_spec (- Z.of_nat (S k) + Z.of_nat (length l)) 0); [|lia].
    simpl. by destruct (l !! (length l - S k)%nat).
Qed.

(** A tag with a negative index passes the test [idx < len(...)]: [pop]
    then counts from the end of the list, or raises when there are not
    that many entries. *)
Lemma remove_button_negative b c uid l (k : nat) :
  remove_conv b !! (c, uid) = Some SELECTING_ITEM →
  bot_list_items b !! c = Some l →
  let ud := <[uid := user_data_of b uid]> (bot_user_data b) in
  process_update b
    (update_of c uid (CallbackQuery ("remove_" +:+ Py.str (- Z.of_nat (S k))))) =
    match Py.pop l (- Z.of_nat (S k)) with
    | Ok (x, rest) =>
        (Bot (<[c := rest]> (bot_list_items b)) ud (add_conv b)
             (delete (c, uid) (remove_conv b)),
         [Answered; Edited (removed_text x)], None)
    | Raise e => (Bot (bot_list_items b) ud (add_conv b) (remove_conv b), [Answered], Some e)
    end.
Proof.
  intros Hst Hl ud.
  destruct (remove_tag_facts (- Z.of_nat (S k))) as (Hc & Hcl & Hs & Hp & Hi).
  rewrite (process_remove_button b (update_of c uid _) _ _ _ l
             eq_refl Hc Hcl Hs Hp Hi Hst Hl).
  destruct (Z.ltb_spec (- Z.of_nat (S k)) (Z.of_nat (length l))); [|lia].
  by destruct (Py.pop l (- Z.of_nat (S k))) as [[x rest]|e].
Qed.

(** * The properties of the specification *)

(** C1, at the input where the code departs from it. The claim: a removal
    with an index outside [0, N) fails with NotFound and leaves the list
    alone. The code: with the two-entry list of [menu_open], the tag
    [remove_-1] removes the last entry and confirms the removal, and the tag
    [remove_-3] raises [IndexError], sends no message and leaves the dialog
    open. Tags with an index in [0, N) or at least N behave as the claim says
    ([remove_button_nat], [delete_shifts]). *)
Theorem remove_negative_index :
  entries menu_open 1 = [Entry "Milk" "Alice" "-"; Entry "Eggs" "Bob" "for the cake"] ∧
  remove_conv menu_open !! (1, 7) = Some SELECTING_ITEM ∧
  (let '(b', out, err) :=
     process_update menu_open (update_of 1 7 (CallbackQuery "remove_-1")) in
   entries b' 1 = [Entry "Milk" "Alice" "-"] ∧
   out = [Answered; Edited "Removed: Eggs (Person: Bob)"] ∧
   err = None) ∧
  (let '(b', out, err) :=
     process_update menu_open (update_of 1 7 (CallbackQuery "remove_-3")) in
   entries b' 1 = entries menu_open 1 ∧
   out = [Answered] ∧
   err = Some IndexError ∧
   remove_conv b' !! (1, 7) = Some SELECTING_ITEM).
Proof. vm_compute. repeat split. Qed.

(** C2: in any state the bot can reach, when a session has the removal menu
    open and a button of that menu carries a position that the chat's list
    no longer has (the list got shorter, possibly empty, after the menu was
    shown), pressing it raises nothing, sends exactly one message, the error
    text, closes the dialog, and leaves [list_items], the Add-Item
    conversations and every user's data as they were. *)
Theorem stale_selection_reports_once (us : list Update) (c uid : Z) (n : nat) :
  let b := run initial us in
  remove_conv b !! (c, uid) = Some SELECTING_ITEM →
  (length (entries b c) ≤ n)%nat →
  let '(b', out, err) :=
    process_update b
      (update_of c uid (CallbackQuery ("remove_" +:+ Py.str (Z.of_nat n)))) in
  err = None ∧
  out = [Answered; Edited "Error: Item not found."] ∧
  length (messages out) = 1%nat ∧
  bot_list_items b' = bot_list_items b ∧
  remove_conv b' !! (c, uid) = None ∧
  add_conv b' = add_conv b ∧
  (∀ v, user_data_of b' v = user_data_of b v).
Proof.
  intros b Hst Hn.
  destruct (menus_have_lists_run initial us menus_have_lists_initial _ _ Hst)
    as [l Hl]. simpl in Hl. fold b in Hl.
  rewrite (remove_button_nat b c uid l n Hst Hl).
  unfold entries in Hn. rewrite Hl in Hn. simpl in Hn.
  rewrite (lookup_ge_None_2 l n) by lia.
  repeat split; try done.
  - simpl. apply lookup_delete_eq.
  - intros v. unfold user_data_of at 1. simpl.
    destruct (decide (uid = v)) as [->|Hne].
    + by rewrite lookup_insert_eq.
    + by rewrite lookup_insert_ne.
Qed.

(** The removal menu is still on screen when somebody clears the list; the
    button for the first entry is pressed afterwards. *)
Lemma stale_selection_reports_once_witness :
  let b := run initial cleared_under_menu in
  let '(b', out, err) :=
    process_update b
      (update_of 1 7 (CallbackQuery ("remove_" +:+ Py.str (Z.of_nat 0)))) in
  err = None ∧
  out = [Answered; Edited "Error: Item not found."] ∧
  length (messages out) = 1%nat ∧
  bot_list_items b' = bot_list_items b ∧
  remove_conv b' !! (1, 7) = None ∧
  add_conv b' = add_conv b ∧
  (∀ v, user_data_of b' v = user_data_of b v).
Proof.
  apply (stale_selection_reports_once cleared_under_menu 1 7 0%nat).
  - vm_compute. reflexivity.
  - vm_compute. lia.
Defined.

(** ** The Add-Item dialog, step by step *)

Lemma step_eq b u b' out err : process_update b u = (b', out, err) → step b u = b'.
Proof. unfold step. by intros ->. Qed.

(** From a session with no Add-Item dialog under way: /add and the first
    two answers. The list is untouched, the session waits for the comment,
    and the user's data holds the two answers just given, whatever it held
    before. *)
Lemma run_add_answers b c uid i p :
  add_conv b !! (c, uid) = None →
  let b3 := run b [ update_of c uid (CommandMsg "add");
                    update_of c uid (TextMsg i); update_of c uid (TextMsg p) ] in
  bot_list_items b3 = bot_list_items b ∧
  remove_conv b3 = remove_conv b ∧
  add_conv b3 !! (c, uid) = Some COMMENT ∧
  user_data_of b3 uid !! "item" = Some i ∧
  user_data_of b3 uid !! "person" = Some p.
Proof.
  intros Hst. unfold run. cbn [foldl].
  rewrite (step_eq _ _ _ _ _ (process_add_idle b (update_of c uid _) eq_refl Hst)).
  match goal with |- context [step ?b1 (update_of c uid (TextMsg i))] =>
    rewrite (step_eq _ _ _ _ _ (process_item b1 (update_of c uid _) i eq_refl
                                  (lookup_insert_eq _ _ _)))
  end.
  match goal with |- context [step ?b2 (update_of c uid (TextMsg p))] =>
    rewrite (step_eq _ _ _ _ _ (process_person b2 (update_of c uid _) p eq_refl
                                  (lookup_insert_eq _ _ _)))
  end.
  simpl. repeat split.
  - apply lookup_insert_eq.
  - rewrite !user_data_of_written. by rewrite lookup_insert_ne, lookup_insert_eq.
  - rewrite !user_data_of_written. by rewrite lookup_insert_eq.
Qed.

(** C3, the claim as written, fails. User 7 has answered the first question
    of the Add-Item dialog in chat 1 with "Milk". A second /add does not
    put the session back to its first state: the session still waits for
    the person and still holds "Milk" (and /remove changes neither), so the
    next two texts finish the first dialog and the entry stored carries the
    item typed before the second /add. *)
Lemma entry_command_counterexample :
  let b := run initial [ update_of 1 7 (CommandMsg "add"); update_of 1 7 (TextMsg "Milk") ] in
  let b' := step b (update_of 1 7 (CommandMsg "add")) in
  let b'' := step b (update_of 1 7 (CommandMsg "remove")) in
  add_conv b !! (1, 7) = Some PERSON ∧
  user_data_of b 7 !! "item" = Some "Milk" ∧
  add_conv b' !! (1, 7) ≠ Some ITEM ∧
  user_data_of b' 7 !! "item" = Some "Milk" ∧
  add_conv b'' !! (1, 7) = Some PERSON ∧
  user_data_of b'' 7 !! "item" = Some "Milk" ∧
  entries (run b' [ update_of 1 7 (TextMsg "Alice"); update_of 1 7 (TextMsg "none") ]) 1 =
    [Entry "Milk" "Alice" "-"].
Proof. vm_compute. repeat split; discriminate. Qed.

(** C3, amended: while a session has an Add-Item dialog under way, /add is
    taken by no handler (nothing is sent, nothing changes) and /remove at
    most opens the Remove-Item dialog beside it: the step of the Add-Item
    dialog, the list and every user's partial data stay as they were. And a
    dialog started from a session with none under way overwrites what the
    user's data held: after the two answers it holds exactly the item and
    the person just given. *)
Theorem entry_command_mid_dialog (b : bot) (c uid : Z) (st : state) :
  add_conv b !! (c, uid) = Some st →
  process_update b (update_of c uid (CommandMsg "add")) = (b, [], None) ∧
  (let b' := step b (update_of c uid (CommandMsg "remove")) in
   add_conv b' = add_conv b ∧
   bot_list_items b' = bot_list_items b ∧
   ∀ v, user_data_of b' v = user_data_of b v) ∧
  (∀ b0 i p,
     add_conv b0 !! (c, uid) = None →
     let b3 := run b0 [ update_of c uid (CommandMsg "add");
                        update_of c uid (TextMsg i); update_of c uid (TextMsg p) ] in
     add_conv b3 !! (c, uid) = Some COMMENT ∧
     user_data_of b3 uid !! "item" = Some i ∧
     user_data_of b3 uid !! "person" = Some p).
Proof.
  intros Hst. split; [by eapply (process_add_busy b (update_of c uid _))|]. split.
  - unfold step, process_update.
    rewrite (select_remove b (update_of c uid _) eq_refl).
    destruct (remove_conv b !! key (update_of c uid (CommandMsg "remove"))); [done|].
    simpl. rewrite (remove_command_spec (update_of c uid _) "remove" _ eq_refl). simpl.
    assert (∀ l a r v,
              user_data_of (Bot l (<[uid := user_data_of b uid]> (bot_user_data b)) a r) v
              = user_data_of b v) as Hud.
    { intros l a r v. unfold user_data_of at 1. simpl.
      destruct (decide (uid = v)) as [->|Hne].
      - by rewrite lookup_insert_eq.
      - by rewrite lookup_insert_ne. }
    destruct (bot_list_items b !! c) as [[|e l]|]; simpl; auto.
  - intros b0 i p H0.
    pose proof (run_add_answers b0 c uid i p H0) as (_ & _ & H1 & H2 & H3).
    by repeat split.
Qed.

(** The session of the counterexample, and a first dialog in a fresh bot. *)
Lemma entry_command_mid_dialog_witness :
  process_update
    (run initial [ update_of 1 7 (CommandMsg "add"); update_of 1 7 (TextMsg "Milk") ])
    (update_of 1 7 (CommandMsg "add")) =
  (run initial [ update_of 1 7 (CommandMsg "add"); update_of 1 7 (TextMsg "Milk") ],
   [], None) ∧
  user_data_of
    (run initial [ update_of 1 7 (CommandMsg "add"); update_of 1 7 (TextMsg "Eggs");
                   update_of 1 7 (TextMsg "Bob") ]) 7 !! "item" = Some "Eggs".
Proof.
  pose proof (entry_command_mid_dialog
                (run initial [ update_of 1 7 (CommandMsg "add");
                               update_of 1 7 (TextMsg "Milk") ])
                1 7 PERSON) as H.
  destruct H as (H1 & _ & H3); [vm_compute; reflexivity|].
  split; [exact H1|].
  apply (H3 initial "Eggs" "Bob"). vm_compute. reflexivity.
Defined.

(** C4: when the comment arrives in a session that waits for it, with the
    item and the person in the user's data, [receive_comment] raises
    nothing and the chat's list afterwards is the list before (the empty
    list if the chat had no key yet) followed by the new entry: the entry
    is last, and there is exactly one entry more. The key is in
    [list_items] afterwards whether or not it was before. *)
Theorem add_appends (b : bot) (c uid : Z) (text i p : string) :
  add_conv b !! (c, uid) = Some COMMENT →
  user_data_of b uid !! "item" = Some i →
  user_data_of b uid !! "person" = Some p →
  let e := Entry i p (normalize_comment text) in
  let '(b', out, err) := process_update b (update_of c uid (TextMsg text)) in
  err = None ∧
  bot_list_items b' !! c = Some (entries b c ++ [e])%list ∧
  entries b' c = (entries b c ++ [e])%list ∧
  last (entries b' c) = Some e ∧
  length (entries b' c) = S (length (entries b c)).
Proof.
  intros Hst Hi Hp e.
  rewrite (process_comment b (update_of c uid _) text i p eq_refl Hst Hi Hp).
  cbv zeta. cbn [effective_chat effective_user update_of]. fold e.
  rewrite entries_written.
  split; [done|]. split; [simpl; apply lookup_insert_eq|]. split; [done|]. split.
  - apply last_snoc.
  - rewrite length_app. simpl. lia.
Qed.

(** The chat has no key in [list_items] yet. *)
Lemma add_appends_witness :
  let '(b', out, err) :=
    process_update
      (run initial [ update_of 1 7 (CommandMsg "add"); update_of 1 7 (TextMsg "Milk");
                     update_of 1 7 (TextMsg "Alice") ])
      (update_of 1 7 (TextMsg "2 litres")) in
  bot_list_items b' !! 1 = Some [Entry "Milk" "Alice" "2 litres"].
Proof.
  pose proof (add_appends
                (run initial [ update_of 1 7 (CommandMsg "add");
                               update_of 1 7 (TextMsg "Milk");
                               update_of 1 7 (TextMsg "Alice") ])
                1 7 "2 litres" "Milk" "Alice") as H.
  destruct (process_update _ _) as [[b' out] err].
  apply H; vm_compute; reflexivity.
Defined.

(** C5: pressing the confirm button of /clear raises nothing and leaves the
    chat with the empty list under its key, whatever [list_items] held for
    the chat before, nothing included. *)
Theorem clear_empties (b : bot) (c uid : Z) :
  let '(b', out, err) :=
    process_update b (update_of c uid (CallbackQuery "clear_confirm")) in
  err = None ∧
  bot_list_items b' !! c = Some [] ∧
  entries b' c = [].
Proof.
  rewrite (process_clear_button b (update_of c uid _) "clear_confirm" eq_refl eq_refl).
  unfold entries. simpl. by rewrite lookup_insert_eq.
Qed.

(** ** The comment "none" *)

Lemma lower_char_is (lo up c : ascii) :
  (lo, up) = ("n", "N")%char ∨ (lo, up) = ("o", "O")%char ∨ (lo, up) = ("e", "E")%char →
  bool_decide (Py.lower_char c = lo) = either lo up c.
Proof.
  intros [[= -> ->]|[[= -> ->]|[= -> ->]]];
    destruct c as [[] [] [] [] [] [] [] []]; reflexivity.
Qed.

Lemma lower_none t : bool_decide (Py.lower t = "none") = spells_none t.
Proof.
  destruct t as [|a [|b [|c [|d [|x t]]]]]; cbn [Py.lower]; unfold spells_none;
    try (apply bool_decide_eq_false_2; by intros [=]).
  rewrite <- (lower_char_is "n" "N" a), <- (lower_char_is "o" "O" b),
    <- (lower_char_is "n" "N" c), <- (lower_char_is "e" "E" d) by auto.
  repeat case_bool_decide; simpl; try done; congruence.
Qed.

(** C6: from a session with no Add-Item dialog under way, /add followed by
    three texts stores the entry made of the first, the second, and the
    third as the comment, except that a third text spelling "none" in any
    mix of cases is stored as "-"; the answers Milk, Alice, none give the
    entry Milk, Alice, "-". *)
Theorem add_dialog_stores (b : bot) (c uid : Z) (i p t : string) :
  add_conv b !! (c, uid) = None →
  entries (run b [ update_of c uid (CommandMsg "add"); update_of c uid (TextMsg i);
                   update_of c uid (TextMsg p); update_of c uid (TextMsg t) ]) c =
    (entries b c ++ [Entry i p (if spells_none t then "-" else t)])%list ∧
  entries (run initial [ update_of c uid (CommandMsg "add"); update_of c uid (TextMsg "Milk");
                         update_of c uid (TextMsg "Alice"); update_of c uid (TextMsg "none") ]) c =
    [Entry "Milk" "Alice" "-"].
Proof.
  assert (∀ b0 i0 p0 t0,
            add_conv b0 !! (c, uid) = None →
            entries (run b0 [ update_of c uid (CommandMsg "add");
                              update_of c uid (TextMsg i0);
                              update_of c uid (TextMsg p0);
                              update_of c uid (TextMsg t0) ]) c =
              (entries b0 c ++ [Entry i0 p0 (if spells_none t0 then "-" else t0)])%list)
    as Hgen.
  { intros b0 i0 p0 t0 H0.
    pose proof (run_add_answers b0 c uid i0 p0 H0) as (Hl & _ & Hst & Hi & Hp).
    change (run b0 [ update_of c uid (CommandMsg "add"); update_of c uid (TextMsg i0);
                     update_of c uid (TextMsg p0); update_of c uid (TextMsg t0) ])
      with (step (run b0 [ update_of c uid (CommandMsg "add");
                           update_of c uid (TextMsg i0);
                           update_of c uid (TextMsg p0) ])
                 (update_of c uid (TextMsg t0))).
    rewrite (step_eq _ _ _ _ _
               (process_comment _ (update_of c uid _) t0 i0 p0 eq_refl Hst Hi Hp)).
    cbn [effective_chat update_of]. rewrite entries_written.
    unfold entries. rewrite Hl. unfold normalize_comment. by rewrite lower_none. }
  intros Hst. split; [by apply Hgen|].
  by rewrite (Hgen initial "Milk" "Alice" "none").
Qed.

Lemma add_dialog_stores_witness :
  entries (run initial [ update_of 1 7 (CommandMsg "add"); update_of 1 7 (TextMsg "Tea");
                         update_of 1 7 (TextMsg "Bob"); update_of 1 7 (TextMsg "NoNe") ]) 1 =
    [Entry "Tea" "Bob" "-"].
Proof.
  refine (proj1 (add_dialog_stores initial 1 7 "Tea" "Bob" "NoNe" _)).
  vm_compute. reflexivity.
Defined.

(** ** Cancelling *)

Lemma run_app b us1 us2 : run b (us1 ++ us2)%list = run (run b us1) us2.
Proof. unfold run. apply foldl_app. Qed.

(** /add and up to two answers: the list and the Remove-Item conversations
    are untouched, and the session is in one of the three waiting states. *)
Lemma run_add_prefix b c uid (texts : list string) :
  add_conv b !! (c, uid) = None →
  (length texts ≤ 2)%nat →
  let b1 := run b (update_of c uid (CommandMsg "add")
                   :: map (λ t, update_of c uid (TextMsg t)) texts) in
  bot_list_items b1 = bot_list_items b ∧
  remove_conv b1 = remove_conv b ∧
  add_conv b1 !! (c, uid) = nth_error [ITEM; PERSON; COMMENT] (length texts).
Proof.
  intros Hst Hlen. unfold run. cbn [foldl].
  rewrite (step_eq _ _ _ _ _ (process_add_idle b (update_of c uid _) eq_refl Hst)).
  destruct texts as [|t1 [|t2 [|t3 texts]]]; cbn [map foldl length nth_error].
  - repeat split. apply lookup_insert_eq.
  - match goal with |- context [step ?b1 (update_of c uid (TextMsg t1))] =>
      rewrite (step_eq _ _ _ _ _ (process_item b1 (update_of c uid _) t1 eq_refl
                                    (lookup_insert_eq _ _ _)))
    end.
    repeat split. apply lookup_insert_eq.
  - match goal with |- context [step ?b1 (update_of c uid (TextMsg t1))] =>
      rewrite (step_eq _ _ _ _ _ (process_item b1 (update_of c uid _) t1 eq_refl
                                    (lookup_insert_eq _ _ _)))
    end.
    match goal with |- context [step ?b2 (update_of c uid (TextMsg t2))] =>
      rewrite (step_eq _ _ _ _ _ (process_person b2 (update_of c uid _) t2 eq_refl
                                    (lookup_insert_eq _ _ _)))
    end.
    repeat split. apply lookup_insert_eq.
  - simpl in Hlen. lia.
Qed.

(** C7: /cancel in a session whose Add-Item dialog is in any of its states
    raises nothing, acknowledges once, leaves [list_items] and the
    Remove-Item conversations alone, empties the user's data and ends the
    dialog. So /add, up to two answers and then /cancel, from a session with
    no Add-Item dialog under way, leave [list_items] exactly as it was (no
    key for the chat if there was none), the user's data empty, and the
    session without an Add-Item dialog. *)
Theorem cancel_discards (b : bot) (c uid : Z) (st : state) (b0 : bot) (texts : list string) :
  add_conv b !! (c, uid) = Some st →
  add_conv b0 !! (c, uid) = None →
  (length texts ≤ 2)%nat →
  (let '(b', out, err) := process_update b (update_of c uid (CommandMsg "cancel")) in
   err = None ∧
   out = [Replied "Operation cancelled."] ∧
   bot_list_items b' = bot_list_items b ∧
   remove_conv b' = remove_conv b ∧
   user_data_of b' uid = ∅ ∧
   add_conv b' !! (c, uid) = None) ∧
  (let b' := run b0 ((update_of c uid (CommandMsg "add")
                      :: map (λ t, update_of c uid (TextMsg t)) texts)
                     ++ [update_of c uid (CommandMsg "cancel")]) in
   bot_list_items b' = bot_list_items b0 ∧
   entries b' c = entries b0 c ∧
   remove_conv b' = remove_conv b0 ∧
   user_data_of b' uid = ∅ ∧
   add_conv b' !! (c, uid) = None).
Proof.
  assert (∀ b1 st1,
            add_conv b1 !! (c, uid) = Some st1 →
            let '(b', out, err) :=
              process_update b1 (update_of c uid (CommandMsg "cancel")) in
            err = None ∧
            out = [Replied "Operation cancelled."] ∧
            bot_list_items b' = bot_list_items b1 ∧
            remove_conv b' = remove_conv b1 ∧
            user_data_of b' uid = ∅ ∧
            add_conv b' !! (c, uid) = None) as Hcancel.
  { intros b1 st1 H1.
    rewrite (process_cancel_add b1 (update_of c uid _) st1 eq_refl H1).
    repeat split.
    - apply user_data_of_written.
    - apply lookup_delete_eq. }
  intros Hst H0 Hlen. split; [by eapply Hcancel|].
  rewrite run_app.
  pose proof (run_add_prefix b0 c uid texts H0 Hlen) as (Hl & Hr & Ha).
  set (b1 := run b0 (update_of c uid (CommandMsg "add")
                     :: map (λ t, update_of c uid (TextMsg t)) texts)) in *.
  assert (∃ st1, add_conv b1 !! (c, uid) = Some st1) as [st1 H1].
  { rewrite Ha. destruct texts as [|? [|? [|? ?]]]; simpl in *; eauto; lia. }
  specialize (Hcancel b1 st1 H1).
  change (run b1 [update_of c uid (CommandMsg "cancel")])
    with (step b1 (update_of c uid (CommandMsg "cancel"))).
  unfold step. destruct (process_update b1 _) as [[b' out] err]. simpl.
  destruct Hcancel as (_ & _ & Hl' & Hr' & Hu' & Ha').
  unfold entries. rewrite Hl', Hl, Hr', Hr. done.
Qed.

(** /add, "Milk", /cancel in a chat that has no list yet. *)
Lemma cancel_discards_witness :
  let b' := run initial [ update_of 1 7 (CommandMsg "add"); update_of 1 7 (TextMsg "Milk");
                          update_of 1 7 (CommandMsg "cancel") ] in
  bot_list_items b' = bot_list_items initial ∧
  entries b' 1 = entries initial 1 ∧
  remove_conv b' = remove_conv initial ∧
  user_data_of b' 7 = ∅ ∧
  add_conv b' !! (1, 7) = None.
Proof.
  refine (proj2 (cancel_discards
                   (run initial [ update_of 1 7 (CommandMsg "add") ]) 1 7 ITEM
                   initial ["Milk"] _ _ _)).
  - vm_compute. reflexivity.
  - vm_compute. reflexivity.
  - simpl. lia.
Defined.

(** ** Two chats *)

(** C8, the claim as written, fails. User 7 has given "Milk" as the item in
    chat 1 and then starts the Add-Item dialog in chat 2: the answer "Eggs"
    given in chat 2 replaces the item that the session of chat 1 holds, and
    finishing the dialog in chat 1 stores "Eggs" there. *)
Lemma other_chat_counterexample :
  let b := run initial [ update_of 1 7 (CommandMsg "add"); update_of 1 7 (TextMsg "Milk");
                         update_of 2 7 (CommandMsg "add") ] in
  let u := update_of 2 7 (TextMsg "Eggs") in
  effective_chat u ≠ 1 ∧
  session b 1 7 = (Some PERSON, None, {["item" := "Milk"]}) ∧
  session (step b u) 1 7 = (Some PERSON, None, {["item" := "Eggs"]}) ∧
  session (step b u) 1 7 ≠ session b 1 7 ∧
  entries (run (step b u) [ update_of 1 7 (TextMsg "Alice"); update_of 1 7 (TextMsg "none") ]) 1 =
    [Entry "Eggs" "Alice" "-"].
Proof.
  assert (session (run initial [ update_of 1 7 (CommandMsg "add");
                                 update_of 1 7 (TextMsg "Milk");
                                 update_of 2 7 (CommandMsg "add") ]) 1 7
          = (Some PERSON, None, {["item" := "Milk"]})) as H1
    by (vm_compute; reflexivity).
  assert (session (step (run initial [ update_of 1 7 (CommandMsg "add");
                                       update_of 1 7 (TextMsg "Milk");
                                       update_of 2 7 (CommandMsg "add") ])
                        (update_of 2 7 (TextMsg "Eggs"))) 1 7
          = (Some PERSON, None, {["item" := "Eggs"]})) as H2
    by (vm_compute; reflexivity).
  cbv zeta.
  split; [done|].
  split; [exact H1|].
  split; [exact H2|].
  split; [|vm_compute; reflexivity].
  rewrite H1, H2. intros [=].
Qed.

(** C8, amended: an update from chat A changes, in any other chat B,
    neither the list (nor whether [list_items] has a key for B) nor the
    step of any session's dialogs; and it leaves the whole session of B
    alone for every user but the one the update comes from. The partial
    data is kept per user, not per chat, so the sender's own unfinished
    dialog in B sees what the sender just did in A. *)
Theorem other_chat_untouched (b : bot) (u : Update) (c : Z) :
  c ≠ effective_chat u →
  let b' := step b u in
  bot_list_items b' !! c = bot_list_items b !! c ∧
  entries b' c = entries b c ∧
  (∀ v, add_conv b' !! (c, v) = add_conv b !! (c, v) ∧
        remove_conv b' !! (c, v) = remove_conv b !! (c, v)) ∧
  (∀ v, v ≠ effective_user u → session b' c v = session b c v).
Proof.
  intros Hc b'. destruct (process_update_frame b u) as (Hl & _ & Hk & Hu).
  fold b' in Hl, Hk, Hu.
  assert (∀ v, (c, v) ≠ key u) as Hkey by (intros v [= ? ?]; done).
  split; [by apply Hl|]. split; [unfold entries; by rewrite Hl|].
  split; [intros v; by apply Hk|].
  intros v Hv. unfold session.
  destruct (Hk (c, v) (Hkey v)) as [-> ->]. by rewrite (Hu v Hv).
Qed.

(** User 8 completes an entry in chat 2 while user 7 is in the middle of
    the Add-Item dialog in chat 1. *)
Lemma other_chat_untouched_witness :
  let b := run initial [ update_of 1 7 (CommandMsg "add"); update_of 1 7 (TextMsg "Milk");
                         update_of 2 8 (CommandMsg "add"); update_of 2 8 (TextMsg "Eggs");
                         update_of 2 8 (TextMsg "Bob") ] in
  session (step b (update_of 2 8 (TextMsg "none"))) 1 7 = session b 1 7.
Proof.
  refine (proj2 (proj2 (proj2
            (other_chat_untouched
               (run initial [ update_of 1 7 (CommandMsg "add");
                              update_of 1 7 (TextMsg "Milk");
                              update_of 2 8 (CommandMsg "add");
                              update_of 2 8 (TextMsg "Eggs");
                              update_of 2 8 (TextMsg "Bob") ])
               (update_of 2 8 (TextMsg "none")) 1 _))) 7 _); simpl; lia.
Defined.

(** ** Clearing, and the keys of [list_items] *)

(** C9: of the two buttons that /clear shows, the confirm button puts the
    empty list under the chat's key and changes nothing else in
    [list_items]; the deny button leaves [list_items] as it is. Either way
    nothing is raised and exactly one message is produced, the edit of the
    question into the closing text. *)
Theorem clear_confirm_or_deny (b : bot) (c uid : Z) :
  (process_update b (update_of c uid (CommandMsg "clear"))).1.2 =
    [RepliedWithMarkup "Are you sure you want to clear the entire list?"
       [[Button "Yes, clear it" "clear_confirm"; Button "No, keep it" "clear_cancel"]]] ∧
  (let '(b', out, err) :=
     process_update b (update_of c uid (CallbackQuery "clear_confirm")) in
   err = None ∧
   bot_list_items b' = <[c := []]> (bot_list_items b) ∧
   entries b' c = [] ∧
   messages out = [Edited "The list has been cleared."]) ∧
  (let '(b', out, err) :=
     process_update b (update_of c uid (CallbackQuery "clear_cancel")) in
   err = None ∧
   bot_list_items b' = bot_list_items b ∧
   messages out = [Edited "Clear operation cancelled. The list remains unchanged."]).
Proof.
  split; [reflexivity|]. split.
  - rewrite (process_clear_button b (update_of c uid _) "clear_confirm" eq_refl eq_refl).
    repeat split. apply entries_written.
  - by rewrite (process_clear_button b (update_of c uid _) "clear_cancel" eq_refl eq_refl).
Qed.

(** C10: no update takes a key out of [list_items]; and in every state the
    bot can reach from its start, a session that has the removal menu open
    is in a chat whose key is in [list_items], so that no button press in
    that session ends in a [KeyError]. *)
Theorem keys_never_deleted (b : bot) (u : Update) (us : list Update) (c uid : Z) :
  (is_Some (bot_list_items b !! c) → is_Some (bot_list_items (step b u) !! c)) ∧
  (remove_conv (run initial us) !! (c, uid) = Some SELECTING_ITEM →
   is_Some (bot_list_items (run initial us) !! c) ∧
   ∀ data,
     (process_update (run initial us) (update_of c uid (CallbackQuery data))).2
     ≠ Some KeyError).
Proof.
  split; [apply process_update_frame|].
  intros Hst.
  pose proof (menus_have_lists_run initial us menus_have_lists_initial _ _ Hst) as Hl.
  simpl in Hl. split; [done|]. intros data.
  set (b1 := run initial us) in *.
  unfold process_update.
  rewrite (select_callback b1 (update_of c uid _) data eq_refl).
  destruct (Py.startswith data "clear_").
  - destruct (clear_button_callback_no_exn (update_of c uid (CallbackQuery data)) data
                (Env (bot_list_items b1) (user_data_of b1 uid)) eq_refl)
      as (σ' & out & E).
    cbn [callback CallbackQueryHandler effective_user update_of]. by rewrite E.
  - change (key (update_of c uid (CallbackQuery data))) with (c, uid). rewrite Hst.
    cbn [callback CallbackQueryHandler effective_user update_of].
    pose proof (button_callback_no_KeyError (update_of c uid (CallbackQuery data))
                  (Env (bot_list_items b1) (user_data_of b1 uid)) Hl) as Hno.
    destruct (button_callback _ _) as [[σ' out] [r|e]]; [done|].
    simpl in *. congruence.
Qed.

(** The menu is open in chat 1 and somebody clears the list: the key stays,
    and the late button press finds it. *)
Lemma keys_never_deleted_witness :
  is_Some (bot_list_items
             (step menu_open (update_of 1 8 (CallbackQuery "clear_confirm"))) !! 1) ∧
  (process_update (run initial cleared_under_menu)
     (update_of 1 7 (CallbackQuery "remove_0"))).2 ≠ Some KeyError.
Proof.
  pose proof (keys_never_deleted menu_open
                (update_of 1 8 (CallbackQuery "clear_confirm"))
                cleared_under_menu 1 7) as [H1 H2].
  split.
  - apply H1. vm_compute. eauto.
  - apply H2. vm_compute. reflexivity.
Defined.
